(** * Pressure-level bounds: generator and validator

    A shallow embedding of [create_level_bounds.py] (the Generator) and
    [levels_check.py] (the Validator).

    The two scripts only call numpy and netCDF4.  The embedding therefore has
    three layers:
    - IEEE-754 values ([spec_float] of the standard library, binary32 and
      binary64 formats, round to nearest even);
    - the part of numpy and netCDF4 that the scripts use (arrays with a dtype
      and a shape, dimensions, variables, attributes, a file system with one
      directory, a trace of handle events);
    - the two scripts, statement by statement, in a state-and-exception monad.

    Boundaries of the library layer: only the float and double variable types
    are represented; masked values (data equal to the fill value are masked by
    netCDF4 when read) are not represented; [np_mean] adds the elements in
    index order, as numpy does for fewer than eight elements. *)

From Stdlib Require Import ZArith List String Ascii Bool Lia QArith.
From Stdlib Require Import Floats.SpecFloat Numbers.DecimalString.
Import ListNotations.

Local Open Scope Z_scope.
Local Open Scope string_scope.
Local Open Scope list_scope.

(** ** Python exceptions and results *)

Inductive exn : Type :=
| KeyError (key : string)
| IndexError
| TypeError
| ValueError
| RuntimeError
| PermissionError
| FileNotFoundError
| OSError.

Inductive outcome (A : Type) : Type :=
| Ok (a : A)
| Raise (e : exn).
Arguments Ok {A} a.
Arguments Raise {A} e.

(** A computation over a state [S] that may raise.  The state reached when the
    exception is raised is kept: what was printed or written before a failure
    stays printed or written. *)
Definition M (S A : Type) : Type := S -> S * outcome A.

Definition ret {S A} (a : A) : M S A := fun s => (s, Ok a).

Definition bind {S A B} (m : M S A) (k : A -> M S B) : M S B :=
  fun s =>
    match m s with
    | (s', Ok a) => k a s'
    | (s', Raise e) => (s', Raise e)
    end.

Definition lift {S A} (r : outcome A) : M S A := fun s => (s, r).

Declare Scope py_scope.
Delimit Scope py_scope with py.
Notation "x <- m ;; k" := (bind m (fun x => k))
  (at level 61, m at next level, right associativity) : py_scope.
Notation "m ;; k" := (bind m (fun _ => k))
  (at level 61, right associativity) : py_scope.

(** [for i in range(n): body(i)], from index [start]. *)
Fixpoint for_range {S} (start n : nat) (body : nat -> M S unit) : M S unit :=
  match n with
  | O => ret tt
  | Datatypes.S n' => bind (body start) (fun _ => for_range (Datatypes.S start) n' body)
  end.

(** ** Floating point *)

Inductive dtype : Type := Float32 | Float64.

Definition dtype_eqb (a b : dtype) : bool :=
  match a, b with
  | Float32, Float32 | Float64, Float64 => true
  | _, _ => false
  end.

Definition prec_of (d : dtype) : Z :=
  match d with Float32 => 24 | Float64 => 53 end.

Definition emax_of (d : dtype) : Z :=
  match d with Float32 => 128 | Float64 => 1024 end.

(** Conversion of a value to the format [d] (a C cast between float types). *)
Definition cast_to (d : dtype) (x : spec_float) : spec_float :=
  match x with
  | S754_finite s m e => binary_round (prec_of d) (emax_of d) s m e
  | _ => x
  end.

(** Conversion between element types: nothing to do within one type. *)
Definition convert (from to : dtype) (x : spec_float) : spec_float :=
  if dtype_eqb from to then x else cast_to to x.

(** Conversion of an integer to the format [d]. *)
Definition of_int (d : dtype) (n : Z) : spec_float :=
  binary_normalize (prec_of d) (emax_of d) n 0 false.

(** Type promotion of numpy for two float types. *)
Definition promote (a b : dtype) : dtype :=
  match a, b with
  | Float32, Float32 => Float32
  | _, _ => Float64
  end.

Definition fadd (d : dtype) := SFadd (prec_of d) (emax_of d).
Definition fsub (d : dtype) := SFsub (prec_of d) (emax_of d).
Definition fdiv (d : dtype) := SFdiv (prec_of d) (emax_of d).

(** The rational number a finite value stands for. *)
Definition SF2Q (x : spec_float) : option Q :=
  match x with
  | S754_zero _ => Some 0%Q
  | S754_finite s m e =>
      let v := match e with
               | Z0 => inject_Z (Zpos m)
               | Zpos p => inject_Z (Zpos m * 2 ^ Zpos p)
               | Zneg p => Qmake (Zpos m) (2 ^ p)%positive
               end in
      Some (if s then Qopp v else v)
  | S754_infinity _ | S754_nan => None
  end.

(** [x] is finite and stands for exactly the rational [q]. *)
Definition represents (x : spec_float) (q : Q) : Prop :=
  match SF2Q x with
  | Some v => Qeq v q
  | None => False
  end.

(** ** numpy arrays *)

(** An array: element type, shape, and the elements in row-major order.  A
    numpy scalar is an array of shape [[]] with one element. *)
Record ndarray : Type := mk_ndarray {
  arr_dtype : dtype;
  arr_shape : list nat;
  arr_data : list spec_float
}.

Definition size_of (shape : list nat) : nat := fold_right Nat.mul 1%nat shape.

Definition scalar (d : dtype) (x : spec_float) : ndarray :=
  mk_ndarray d [] [x].

(** [np.array(values, dtype=d)] for a flat list of Python integers: each
    integer is converted to a C double and then cast to [d]. *)
Definition np_array1 (d : dtype) (values : list Z) : ndarray :=
  mk_ndarray d [List.length values]
    (map (fun n => cast_to d (of_int Float64 n)) values).

(** [np.array(rows, dtype=d)] for a list of two-element lists. *)
Definition np_array2 (d : dtype) (rows : list (Z * Z)) : ndarray :=
  mk_ndarray d [List.length rows; 2%nat]
    (flat_map (fun r => [cast_to d (of_int Float64 (fst r));
                         cast_to d (of_int Float64 (snd r))]) rows).

(** [len(a)] *)
Definition py_len (a : ndarray) : outcome nat :=
  match arr_shape a with
  | [] => Raise TypeError
  | n :: _ => Ok n
  end.

(** [a[i]] for an index [i >= 0]: an element of a 1-D array, a sub-array of an
    array of more dimensions. *)
Definition getitem (a : ndarray) (i : nat) : outcome ndarray :=
  match arr_shape a with
  | [] => Raise IndexError
  | n :: rest =>
      if (i <? n)%nat then
        Ok (mk_ndarray (arr_dtype a) rest
              (firstn (size_of rest) (skipn (i * size_of rest) (arr_data a))))
      else Raise IndexError
  end.

(** [np.mean(a)] over all the elements: the sum, accumulated in the array's
    own type from negative zero, divided by the number of elements. *)
Definition np_sum (d : dtype) (xs : list spec_float) : spec_float :=
  fold_left (fadd d) xs (S754_zero true).

Definition np_mean (a : ndarray) : ndarray :=
  let d := arr_dtype a in
  scalar d (fdiv d (np_sum d (arr_data a))
                   (of_int d (Z.of_nat (List.length (arr_data a))))).

(** [a - b] where [a] is a scalar: [b] may be a scalar or an array. *)
Definition np_sub_scalar (a b : ndarray) : ndarray :=
  let d := promote (arr_dtype a) (arr_dtype b) in
  let x := convert (arr_dtype a) d (hd S754_nan (arr_data a)) in
  mk_ndarray d (arr_shape b)
    (map (fun y => fsub d x (convert (arr_dtype b) d y)) (arr_data b)).

(** [abs(a)] *)
Definition np_abs (a : ndarray) : ndarray :=
  mk_ndarray (arr_dtype a) (arr_shape a) (map SFabs (arr_data a)).

(** ** The configured constants ([create_level_bounds.py], lines 54 to 64) *)

Definition plev_literals : list Z :=
  [100000; 92500; 85000; 70000; 60000; 50000; 40000; 30000].

Definition plev_bounds_literals : list (Z * Z) :=
  [ (101325, 96250);
    (96250,  88750);
    (88750,  72500);
    (72500,  65000);
    (65000,  55000);
    (55000,  45000);
    (45000,  35000);
    (35000,  25000) ].

Definition plev_vals : ndarray := np_array1 Float32 plev_literals.

Definition plev_bounds_vals : ndarray := np_array2 Float32 plev_bounds_literals.

(** Element [i] of a 1-D array and element [(i, j)] of a 2-D array. *)
Definition item1 (a : ndarray) (i : nat) : option spec_float :=
  match getitem a i with
  | Ok s => match arr_shape s, arr_data s with
            | [], [x] => Some x
            | _, _ => None
            end
  | Raise _ => None
  end.

Definition item2 (a : ndarray) (i j : nat) : option spec_float :=
  match getitem a i with
  | Ok row => item1 row j
  | Raise _ => None
  end.

Definition fle (x y : spec_float) : bool := SFleb x y.
Definition flt (x y : spec_float) : bool := SFltb x y.

(** ** Formatting a float with the format specification [W.Pf] *)

(** [num / den] rounded to the nearest integer, ties to even
    ([0 <= num], [0 < den]). *)
Definition round_half_even_div (num den : Z) : Z :=
  let q := num / den in
  let r := num mod den in
  match 2 * r ?= den with
  | Lt => q
  | Gt => q + 1
  | Eq => if Z.even q then q else q + 1
  end.

(** The value [m * 2^e] times [10^prec], rounded to an integer. *)
Definition scaled_round (prec : nat) (m : positive) (e : Z) : Z :=
  let p10 := 10 ^ Z.of_nat prec in
  match e with
  | Zneg p => round_half_even_div (Zpos m * p10) (2 ^ Zpos p)
  | _ => Zpos m * 2 ^ e * p10
  end.

Definition dec (n : Z) : string :=
  NilZero.string_of_uint (N.to_uint (Z.to_N n)).

Fixpoint replicate (n : nat) (c : string) : string :=
  match n with
  | O => ""
  | S n' => c ++ replicate n' c
  end.

Definition rjust (width : nat) (fill s : string) : string :=
  replicate (width - String.length s) fill ++ s.

Definition digits_fixed (prec : nat) (t : Z) : string :=
  let p10 := 10 ^ Z.of_nat prec in
  match prec with
  | O => dec t
  | _ => dec (t / p10) ++ "." ++ rjust prec "0" (dec (t mod p10))
  end.

Definition sign_str (s : bool) : string := if s then "-" else "".

(** [format(x, "W.Pf")]: fixed point with [prec] decimals, right-aligned with
    spaces in a field of [width] characters (never truncated). *)
Definition format_f (width prec : nat) (x : spec_float) : string :=
  rjust width " "
    match x with
    | S754_nan => "nan"
    | S754_infinity s => sign_str s ++ "inf"
    | S754_zero s => sign_str s ++ digits_fixed prec 0
    | S754_finite s m e => sign_str s ++ digits_fixed prec (scaled_round prec m e)
    end.

(** The same on a numpy value: scalars and 0-d arrays forward to the float;
    an array with dimensions rejects a non-empty format specification. *)
Definition py_format (width prec : nat) (a : ndarray) : outcome string :=
  match arr_shape a, arr_data a with
  | [], [x] => Ok (format_f width prec x)
  | _, _ => Raise TypeError
  end.

(** ** netCDF4 datasets *)

Inductive nc_format : Type := NETCDF3_CLASSIC | NETCDF4.

Record Dimension : Type := mk_dim {
  dim_name : string;
  dim_size : nat;
  dim_unlimited : bool
}.

Record NcVariable : Type := mk_var {
  var_dtype : dtype;
  var_dims : list string;
  var_data : list spec_float;
  var_attrs : list (string * string)
}.

Record NcData : Type := mk_nc {
  nc_fmt : nc_format;
  nc_dims : list Dimension;
  nc_vars : list (string * NcVariable);
  nc_attrs : list (string * string)
}.

(** Python dictionaries keep insertion order: association lists. *)
Fixpoint lookup {A} (k : string) (l : list (string * A)) : option A :=
  match l with
  | [] => None
  | (k', v) :: l' => if String.eqb k k' then Some v else lookup k l'
  end.

Fixpoint update {A} (k : string) (v : A) (l : list (string * A)) : list (string * A) :=
  match l with
  | [] => [(k, v)]
  | (k', v') :: l' =>
      if String.eqb k k' then (k, v) :: l' else (k', v') :: update k v l'
  end.

Fixpoint find_dim (name : string) (dims : list Dimension) : option Dimension :=
  match dims with
  | [] => None
  | d :: dims' => if String.eqb name (dim_name d) then Some d else find_dim name dims'
  end.

(** The shape of a variable: the current sizes of its dimensions. *)
Fixpoint shape_of (dims : list Dimension) (names : list string) : option (list nat) :=
  match names with
  | [] => Some []
  | n :: names' =>
      match find_dim n dims, shape_of dims names' with
      | Some d, Some sh => Some (dim_size d :: sh)
      | _, _ => None
      end
  end.

(** The default fill value of double variables, 9.969209968386869e+36. *)
Definition NC_FILL_DOUBLE : spec_float := S754_finite false (15 * 2 ^ 49) 70.

Definition empty_nc (fmt : nc_format) : NcData := mk_nc fmt [] [] [].

(** [nc.createDimension(name, size)]; a size of 0 makes the dimension
    unlimited. *)
Definition createDimension (name : string) (size : nat) : M NcData unit :=
  fun nc =>
    match find_dim name (nc_dims nc) with
    | Some _ => (nc, Raise RuntimeError)
    | None =>
        (mk_nc (nc_fmt nc)
           (nc_dims nc ++ [mk_dim name size (Nat.eqb size 0)])
           (nc_vars nc) (nc_attrs nc), Ok tt)
    end.

(** [nc.createVariable(name, datatype, dimensions)]; the data start as fill
    values. *)
Definition createVariable (name : string) (d : dtype) (dims : list string)
  : M NcData unit :=
  fun nc =>
    match shape_of (nc_dims nc) dims with
    | None => (nc, Raise (KeyError name))
    | Some sh =>
        match lookup name (nc_vars nc) with
        | Some _ => (nc, Raise RuntimeError)
        | None =>
            (mk_nc (nc_fmt nc) (nc_dims nc)
               (nc_vars nc ++ [(name, mk_var d dims (repeat (cast_to d NC_FILL_DOUBLE) (size_of sh)) [])])
               (nc_attrs nc), Ok tt)
        end
    end.

Definition shape_eqb (a b : list nat) : bool :=
  if list_eq_dec Nat.eq_dec a b then true else false.

(** [var[:] = a] and [var[:, :] = a] for an array of the variable's shape: the
    elements are converted to the variable's type. *)
Definition setitem_all (name : string) (a : ndarray) : M NcData unit :=
  fun nc =>
    match lookup name (nc_vars nc) with
    | None => (nc, Raise (KeyError name))
    | Some v =>
        match shape_of (nc_dims nc) (var_dims v) with
        | None => (nc, Raise RuntimeError)
        | Some sh =>
            if shape_eqb (arr_shape a) sh then
              (mk_nc (nc_fmt nc) (nc_dims nc)
                 (update name
                    (mk_var (var_dtype v) (var_dims v)
                       (map (convert (arr_dtype a) (var_dtype v)) (arr_data a))
                       (var_attrs v))
                    (nc_vars nc))
                 (nc_attrs nc), Ok tt)
            else (nc, Raise ValueError)
        end
    end.

(** [var.key = value] *)
Definition setattr_var (name key value : string) : M NcData unit :=
  fun nc =>
    match lookup name (nc_vars nc) with
    | None => (nc, Raise (KeyError name))
    | Some v =>
        (mk_nc (nc_fmt nc) (nc_dims nc)
           (update name
              (mk_var (var_dtype v) (var_dims v) (var_data v)
                 (update key value (var_attrs v)))
              (nc_vars nc))
           (nc_attrs nc), Ok tt)
    end.

(** [nc.key = value] *)
Definition setattr_global (key value : string) : M NcData unit :=
  fun nc =>
    (mk_nc (nc_fmt nc) (nc_dims nc) (nc_vars nc)
       (update key value (nc_attrs nc)), Ok tt).

(** [ds.variables[name][:]] *)
Definition getvar_all (ds : NcData) (name : string) : outcome ndarray :=
  match lookup name (nc_vars ds) with
  | None => Raise (KeyError name)
  | Some v =>
      match shape_of (nc_dims ds) (var_dims v) with
      | None => Raise RuntimeError
      | Some sh => Ok (mk_ndarray (var_dtype v) sh (var_data v))
      end
  end.

(** ** The world of a script: files, standard output, handle events *)

Inductive Content : Type :=
| NotNetCDF (bytes : string)
| NetCDF (nc : NcData).

Record Entry : Type := mk_entry {
  readable : bool;
  writable : bool;
  content : Content
}.

Record FS : Type := mk_fs {
  dir_writable : bool;
  files : list (string * Entry)
}.

Inductive Event : Type :=
| EvOpen (path : string)
| EvClose (path : string).

Record World : Type := mk_world {
  fs : FS;
  stdout : list string;
  trace : list Event
}.

(** A path can be written when its file exists and is writable, or when it does
    not exist and the directory accepts new files. *)
Definition can_write (f : FS) (path : string) : bool :=
  match lookup path (files f) with
  | Some e => writable e
  | None => dir_writable f
  end.

(** Writing content at a path keeps the permissions of an existing file; a
    new file can be read and written. *)
Definition entry_after (f : FS) (path : string) (c : Content) : Entry :=
  match lookup path (files f) with
  | Some e => mk_entry (readable e) (writable e) c
  | None => mk_entry true true c
  end.

Definition store (f : FS) (path : string) (c : Content) : FS :=
  mk_fs (dir_writable f) (update path (entry_after f path c) (files f)).

(** [Dataset(path, 'w', format=fmt)]: creates the file or truncates it. *)
Definition open_w (path : string) (fmt : nc_format) : M World NcData :=
  fun w =>
    if can_write (fs w) path then
      (mk_world (store (fs w) path (NetCDF (empty_nc fmt))) (stdout w)
         (trace w ++ [EvOpen path]), Ok (empty_nc fmt))
    else (w, Raise PermissionError).

(** [nc.close()]: what was defined through the handle reaches the file. *)
Definition close_w (path : string) (nc : NcData) (w : World) : World :=
  mk_world (store (fs w) path (NetCDF nc)) (stdout w) (trace w ++ [EvClose path]).

(** [with Dataset(path, 'w', format=fmt) as nc: body]: the handle is closed when
    the block is left, by its end or by an exception, which then propagates. *)
Definition with_Dataset_w (path : string) (fmt : nc_format) (body : M NcData unit)
  : M World unit :=
  fun w =>
    match open_w path fmt w with
    | (w1, Raise e) => (w1, Raise e)
    | (w1, Ok nc0) =>
        let '(nc1, r) := body nc0 in (close_w path nc1 w1, r)
    end.

(** [Dataset(path)]: opens for reading. *)
Definition open_r (path : string) : M World NcData :=
  fun w =>
    match lookup path (files (fs w)) with
    | None => (w, Raise FileNotFoundError)
    | Some e =>
        if readable e then
          match content e with
          | NetCDF nc =>
              (mk_world (fs w) (stdout w) (trace w ++ [EvOpen path]), Ok nc)
          | NotNetCDF _ => (w, Raise OSError)
          end
        else (w, Raise PermissionError)
    end.

(** [print(line)] *)
Definition print (line : string) : M World unit :=
  fun w => (mk_world (fs w) (stdout w ++ [line]) (trace w), Ok tt).

(** The handles opened and not closed so far. *)
Fixpoint remove_first (p : string) (l : list string) : list string :=
  match l with
  | [] => []
  | q :: l' => if String.eqb p q then l' else q :: remove_first p l'
  end.

Definition open_handles (t : list Event) : list string :=
  fold_left (fun acc ev =>
               match ev with
               | EvOpen p => acc ++ [p]
               | EvClose p => remove_first p acc
               end) t [].

(** ** The Generator ([create_level_bounds.py]) *)

Local Open Scope py_scope.

Definition level_bounds_nc : string := "level_bounds.nc".

(** Lines 67 to 85: the body of the [with] block, for the two arrays built at
    lines 54 to 64. *)
Definition generate_body (plev_vals plev_bounds_vals : ndarray) : M NcData unit :=
    n <- lift (py_len plev_vals) ;;
    createDimension "plev" n ;;
    createDimension "bnds" 2 ;;
    createVariable "plev" Float64 ["plev"] ;;
    createVariable "plev_bounds" Float64 ["plev"; "bnds"] ;;
    setitem_all "plev" plev_vals ;;
    setitem_all "plev_bounds" plev_bounds_vals ;;
    setattr_var "plev" "standard_name" "air_pressure" ;;
    setattr_var "plev" "long_name" "Pressure Level" ;;
    setattr_var "plev" "units" "Pa" ;;
    setattr_var "plev" "positive" "down" ;;
    setattr_var "plev" "axis" "Z" ;;
    setattr_var "plev" "_CoordinateAxisType" "Pressure" ;;
    setattr_var "plev" "bounds" "plev_bounds" ;;
    setattr_global "history" "Created with custom python script on YYYY-MM-DD".

(** Lines 66 to 85. *)
Definition generate (plev_vals plev_bounds_vals : ndarray) : M World unit :=
  with_Dataset_w level_bounds_nc NETCDF3_CLASSIC
    (generate_body plev_vals plev_bounds_vals).

Definition create_level_bounds : M World unit :=
  generate plev_vals plev_bounds_vals.

(** ** The Validator ([levels_check.py]) *)

(** Lines 5 to 8: the handle is opened and both fields are read in full. *)
Definition read_fields : M World (ndarray * ndarray) :=
  ds <- open_r level_bounds_nc ;;
  plev <- lift (getvar_all ds "plev") ;;
  plev_bounds <- lift (getvar_all ds "plev_bounds") ;;
  ret (plev, plev_bounds).

(** Lines 12 to 14: the body of the loop. *)
Definition report_line (plev_i midpoint diff : string) : string :=
  "plev: " ++ plev_i ++ " | midpoint: " ++ midpoint ++ " | diff: " ++ diff.

Definition check_level (plev plev_bounds : ndarray) (i : nat) : M World unit :=
  row <- lift (getitem plev_bounds i) ;;
  let midpoint := np_mean row in
  lev <- lift (getitem plev i) ;;
  let diff := np_abs (np_sub_scalar midpoint lev) in
  lev' <- lift (getitem plev i) ;;
  s1 <- lift (py_format 8 1 lev') ;;
  s2 <- lift (py_format 8 1 midpoint) ;;
  s3 <- lift (py_format 6 1 diff) ;;
  print (report_line s1 s2 s3).

(** Lines 11 to 14. *)
Definition check_levels (plev plev_bounds : ndarray) : M World unit :=
  n <- lift (py_len plev) ;;
  for_range 0 n (check_level plev plev_bounds).

Definition levels_check : M World unit :=
  fields <- read_fields ;;
  check_levels (fst fields) (snd fields).


(** ** Vocabulary of the statements *)

(** The content stored at a path. *)
Definition file_at (w : World) (path : string) : option Content :=
  option_map content (lookup path (files (fs w))).

Definition opt_rel (r : spec_float -> spec_float -> bool)
  (x y : option spec_float) : bool :=
  match x, y with
  | Some a, Some b => r a b
  | _, _ => false
  end.

(** [bounds[i][0] >= levels[i] >= bounds[i][1]] *)
Definition brackets (levels bounds : ndarray) (i : nat) : bool :=
  opt_rel fle (item1 levels i) (item2 bounds i 0)
  && opt_rel fle (item2 bounds i 1) (item1 levels i).

(** [levels[i] > levels[i+1]] *)
Definition decreasing_at (levels : ndarray) (i : nat) : bool :=
  opt_rel flt (item1 levels (S i)) (item1 levels i).

(** [bounds[i][0] > bounds[i][1]] *)
Definition upper_above_lower (bounds : ndarray) (i : nat) : bool :=
  opt_rel flt (item2 bounds i 1) (item2 bounds i 0).

(** [bounds[i][1] == bounds[i+1][0]] *)
Definition contiguous_at (bounds : ndarray) (i : nat) : bool :=
  opt_rel SFeqb (item2 bounds i 1) (item2 bounds (S i) 0).

(** Two finite values that stand for the same number. *)
Definition same_value (x y : spec_float) : Prop :=
  match SF2Q x, SF2Q y with
  | Some a, Some b => Qeq a b
  | _, _ => False
  end.

(** The midpoint and the difference as the specification words them:
    [(b0 + b1) / 2] in the type of the bounds, and [|midpoint - level|] in
    the common type of the two. *)
Definition spec_midpoint (d : dtype) (b0 b1 : spec_float) : spec_float :=
  fdiv d (fadd d b0 b1) (of_int d 2).

Definition spec_abs_diff (d d' : dtype) (mid lev : spec_float) : spec_float :=
  let dd := promote d d' in
  SFabs (fsub dd (convert d dd mid) (convert d' dd lev)).

(** The line for a level [lev] of type [d'] and bounds [b0], [b1] of type [d]. *)
Definition spec_line (d d' : dtype) (lev b0 b1 : spec_float) : string :=
  report_line (format_f 8 1 lev)
    (format_f 8 1 (spec_midpoint d b0 b1))
    (format_f 6 1 (spec_abs_diff d d' (spec_midpoint d b0 b1) lev)).

(** The line for index [i] of a level array and an array of bounds pairs. *)
Definition line_at (plev plev_bounds : ndarray) (i : nat) : string :=
  spec_line (arr_dtype plev_bounds) (arr_dtype plev)
    (nth i (arr_data plev) S754_nan)
    (nth (i * 2) (arr_data plev_bounds) S754_nan)
    (nth (S (i * 2)) (arr_data plev_bounds) S754_nan).

(** The file at the Validator's path can be opened and holds the two fields. *)
Definition exposes (w : World) (plev plev_bounds : ndarray) : Prop :=
  exists e nc,
    lookup level_bounds_nc (files (fs w)) = Some e /\
    readable e = true /\
    content e = NetCDF nc /\
    getvar_all nc "plev" = Ok plev /\
    getvar_all nc "plev_bounds" = Ok plev_bounds.

(** The world once the Validator has opened its file. *)
Definition opened (w : World) : World :=
  mk_world (fs w) (stdout w) (trace w ++ [EvOpen level_bounds_nc]).

Definition printed (w : World) (lines : list string) : World :=
  mk_world (fs w) (stdout w ++ lines) (trace w).

(** [n] levels in one dimension. *)
Definition levels_1d (a : ndarray) (n : nat) : Prop :=
  arr_shape a = [n] /\ List.length (arr_data a) = n.

(** [r] rows of two bounds. *)
Definition pairs_2d (a : ndarray) (r : nat) : Prop :=
  arr_shape a = [r; 2%nat] /\ List.length (arr_data a) = (r * 2)%nat.

(** The Validator fails and has printed nothing. *)
Definition aborts_before_printing (w : World) : Prop :=
  exists w' e, levels_check w = (w', Raise e) /\ stdout w' = stdout w.

(** The two fields do not have the shapes [(n,)] and [(n, 2)]. *)
Definition dims_mismatched (plev plev_bounds : ndarray) : bool :=
  match arr_shape plev, arr_shape plev_bounds with
  | [n], [m; 2%nat] => negb (Nat.eqb n m)
  | _, _ => true
  end.

(** The file written at a path will be readable: a new file, or an existing
    one that is. *)
Definition readable_after_write (f : FS) (path : string) : bool :=
  match lookup path (files f) with
  | Some e => readable e
  | None => true
  end.

(** What the Generator leaves in the handle for the configured arrays. *)
Definition generated_nc : NcData :=
  fst (generate_body plev_vals plev_bounds_vals (empty_nc NETCDF3_CLASSIC)).

(** An empty directory in which files can be created. *)
Definition world0 : World := mk_world (mk_fs true []) [] [].

(** A directory holding a readable netCDF file at the Validator's path. *)
Definition world_of (nc : NcData) : World :=
  mk_world (mk_fs true [(level_bounds_nc, mk_entry true true (NetCDF nc))]) [] [].

(** Scenario A: two levels with their two bounds pairs, as doubles. *)
Definition scenario_nc : NcData :=
  mk_nc NETCDF3_CLASSIC
    [mk_dim "plev" 2 false; mk_dim "bnds" 2 false]
    [("plev", mk_var Float64 ["plev"]
                (map (of_int Float64) [100000; 92500]) []);
     ("plev_bounds", mk_var Float64 ["plev"; "bnds"]
                (map (of_int Float64) [101325; 96250; 96250; 88750]) [])]
    [].

Definition scenario_plev : ndarray :=
  mk_ndarray Float64 [2%nat] (map (of_int Float64) [100000; 92500]).

Definition scenario_bounds : ndarray :=
  mk_ndarray Float64 [2%nat; 2%nat]
    (map (of_int Float64) [101325; 96250; 96250; 88750]).

(** A file whose bounds have one row for two levels: [plev_bounds] is defined
    over a dimension [lev] of size 1. *)
Definition short_nc : NcData :=
  mk_nc NETCDF3_CLASSIC
    [mk_dim "plev" 2 false; mk_dim "lev" 1 false; mk_dim "bnds" 2 false]
    [("plev", mk_var Float64 ["plev"]
                (map (of_int Float64) [100000; 92500]) []);
     ("plev_bounds", mk_var Float64 ["lev"; "bnds"]
                (map (of_int Float64) [101325; 96250]) [])]
    [].

Definition short_bounds : ndarray :=
  mk_ndarray Float64 [1%nat; 2%nat] (map (of_int Float64) [101325; 96250]).

(** A file without the [plev_bounds] field. *)
Definition levels_only_nc : NcData :=
  mk_nc NETCDF3_CLASSIC
    [mk_dim "plev" 2 false]
    [("plev", mk_var Float64 ["plev"]
                (map (of_int Float64) [100000; 92500]) [])]
    [].

(** A directory that accepts no new file and holds a read-only file at the
    output path. *)
Definition world_readonly : World :=
  mk_world
    (mk_fs false [(level_bounds_nc, mk_entry true false (NotNetCDF "previous run"))])
    [] [].

(** The attributes the Generator attaches to [plev] (lines 77 to 83). *)
Definition plev_attributes : list (string * string) :=
  [("standard_name", "air_pressure");
   ("long_name", "Pressure Level");
   ("units", "Pa");
   ("positive", "down");
   ("axis", "Z");
   ("_CoordinateAxisType", "Pressure");
   ("bounds", "plev_bounds")].

Definition history_attribute : list (string * string) :=
  [("history", "Created with custom python script on YYYY-MM-DD")].

Definition generated_dims (n : nat) : list Dimension :=
  [mk_dim "plev" n (Nat.eqb n 0); mk_dim "bnds" 2 false].

(** The elements of an array as they are stored in a double variable. *)
Definition as_doubles (a : ndarray) : list spec_float :=
  map (convert (arr_dtype a) Float64) (arr_data a).

(** The dataset of a complete run for [n] levels. *)
Definition complete_nc (pv pbv : ndarray) (n : nat) : NcData :=
  mk_nc NETCDF3_CLASSIC (generated_dims n)
    [("plev", mk_var Float64 ["plev"] (as_doubles pv) plev_attributes);
     ("plev_bounds", mk_var Float64 ["plev"; "bnds"] (as_doubles pbv) [])]
    history_attribute.

(** The dataset of a run stopped at line 74: the levels are written, the
    bounds are fill values, no attribute is set. *)
Definition stopped_nc (pv : ndarray) (n : nat) : NcData :=
  mk_nc NETCDF3_CLASSIC (generated_dims n)
    [("plev", mk_var Float64 ["plev"] (as_doubles pv) []);
     ("plev_bounds", mk_var Float64 ["plev"; "bnds"]
        (repeat (cast_to Float64 NC_FILL_DOUBLE) (size_of [n; 2%nat])) [])]
    [].

(** The world once the Generator has opened its file. *)
Definition opened_w (w : World) : World :=
  mk_world (store (fs w) level_bounds_nc (NetCDF (empty_nc NETCDF3_CLASSIC)))
    (stdout w) (trace w ++ [EvOpen level_bounds_nc]).

(** The arrays the Validator reads from the file of a complete run. *)
Definition read_levels (pv : ndarray) (n : nat) : ndarray :=
  mk_ndarray Float64 [n] (as_doubles pv).

Definition read_bounds (pbv : ndarray) (n : nat) : ndarray :=
  mk_ndarray Float64 [n; 2%nat] (as_doubles pbv).

(** Scenario B: a level at the midpoint of its bounds. *)
Definition scenario_B_plev : ndarray :=
  mk_ndarray Float64 [1%nat] [of_int Float64 90000].

Definition scenario_B_bounds : ndarray :=
  mk_ndarray Float64 [1%nat; 2%nat] (map (of_int Float64) [95000; 85000]).

(** Three levels for two bounds rows, as float32 arrays. *)
Definition three_levels : ndarray := np_array1 Float32 [100000; 92500; 85000].

Definition two_rows : ndarray :=
  np_array2 Float32 [(101325, 96250); (96250, 88750)].

(** A file with three bounds rows for two levels. *)
Definition surplus_nc : NcData :=
  mk_nc NETCDF3_CLASSIC
    [mk_dim "plev" 2 false; mk_dim "lev" 3 false; mk_dim "bnds" 2 false]
    [("plev", mk_var Float64 ["plev"]
                (map (of_int Float64) [100000; 92500]) []);
     ("plev_bounds", mk_var Float64 ["lev"; "bnds"]
                (map (of_int Float64)
                   [101325; 96250; 96250; 88750; 88750; 72500]) [])]
    [].

Definition surplus_bounds : ndarray :=
  mk_ndarray Float64 [3%nat; 2%nat]
    (map (of_int Float64) [101325; 96250; 96250; 88750; 88750; 72500]).

(** A file whose [plev] has two dimensions. *)
Definition grid_nc : NcData :=
  mk_nc NETCDF3_CLASSIC
    [mk_dim "plev" 2 false; mk_dim "bnds" 2 false]
    [("plev", mk_var Float64 ["plev"; "bnds"]
                (map (of_int Float64) [100000; 92500; 85000; 70000]) []);
     ("plev_bounds", mk_var Float64 ["plev"; "bnds"]
                (map (of_int Float64) [101325; 96250; 96250; 88750]) [])]
    [].

Definition grid_plev : ndarray :=
  mk_ndarray Float64 [2%nat; 2%nat]
    (map (of_int Float64) [100000; 92500; 85000; 70000]).

(** A file with no level. *)
Definition no_level_nc : NcData :=
  mk_nc NETCDF3_CLASSIC
    [mk_dim "plev" 0 true; mk_dim "bnds" 2 false]
    [("plev", mk_var Float64 ["plev"] [] []);
     ("plev_bounds", mk_var Float64 ["plev"; "bnds"] [] [])]
    [].

(** A directory with another file beside the output path. *)
Definition world_with_notes : World :=
  mk_world
    (mk_fs true [("notes.txt", mk_entry true true (NotNetCDF "keep me"))])
    ["earlier output"] [].

(** A directory with a writable file of an earlier run at the output path. *)
Definition world_previous : World :=
  mk_world
    (mk_fs true [(level_bounds_nc, mk_entry true true (NotNetCDF "previous run"))])
    [] [].

(** A finite value: a zero or a finite non-zero number. *)
Definition is_finite (x : spec_float) : bool :=
  match x with
  | S754_zero _ | S754_finite _ _ _ => true
  | S754_infinity _ | S754_nan => false
  end.

(** * Properties *)

(** ** The configured constants *)

(** C9. The two configured arrays have eight entries each, and every bounds
    pair brackets its level: upper bound >= level >= lower bound. *)
Theorem constants_bracket_levels :
  py_len plev_vals = Ok 8%nat /\
  py_len plev_bounds_vals = Ok 8%nat /\
  forallb (brackets plev_vals plev_bounds_vals) (seq 0 8) = true.
Proof. repeat split; vm_compute; reflexivity. Qed.

(** C10. The configured levels are strictly decreasing, every bounds pair has
    its upper bound above its lower bound, and the lower bound of each of the
    first seven pairs is the upper bound of the next one. *)
Theorem constants_ordered_and_contiguous :
  forallb (decreasing_at plev_vals) (seq 0 7) = true /\
  forallb (upper_above_lower plev_bounds_vals) (seq 0 8) = true /\
  forallb (contiguous_at plev_bounds_vals) (seq 0 7) = true.
Proof. repeat split; vm_compute; reflexivity. Qed.

(** The float32 array elements stand for exactly the integers written in the
    source, and so do the doubles they widen to. *)
Lemma configured_levels_exact :
  Forall2 represents (arr_data plev_vals) (map inject_Z plev_literals) /\
  Forall2 represents (map (cast_to Float64) (arr_data plev_vals))
    (map inject_Z plev_literals).
Proof.
  split;
    repeat (apply Forall2_cons; [vm_compute; reflexivity|]); apply Forall2_nil.
Qed.

(** On the configured bounds, widened to double, no operation of the midpoint
    rounds: the double obtained is the rational midpoint. *)
Lemma configured_midpoints_exact :
  Forall2 represents
    (map (fun r => spec_midpoint Float64
                     (cast_to Float64 (cast_to Float32 (of_int Float64 (fst r))))
                     (cast_to Float64 (cast_to Float32 (of_int Float64 (snd r)))))
       plev_bounds_literals)
    (map (fun r => (inject_Z (fst r + snd r) / 2)%Q) plev_bounds_literals).
Proof.
  repeat (apply Forall2_cons; [vm_compute; reflexivity|]); apply Forall2_nil.
Qed.

(** Pointwise relations between explicit lists, decided by evaluation. *)
Ltac forall2_by_computation :=
  repeat (apply Forall2_cons; [vm_compute; reflexivity|]); apply Forall2_nil.

(** ** Association lists and the file system *)

Lemma lookup_update_same {A} (k : string) (v : A) (l : list (string * A)) :
  lookup k (update k v l) = Some v.
Proof.
  induction l as [|[k' v'] l IH]; simpl.
  - now rewrite String.eqb_refl.
  - destruct (String.eqb k k') eqn:E; simpl.
    + now rewrite String.eqb_refl.
    + now rewrite E.
Qed.

Lemma lookup_store (f : FS) (path : string) (c : Content) :
  lookup path (files (store f path c)) = Some (entry_after f path c).
Proof. unfold store; simpl. apply lookup_update_same. Qed.

Lemma file_at_store (f : FS) (st : list string) (tr : list Event)
  (path : string) (c : Content) :
  file_at (mk_world (store f path c) st tr) path = Some c.
Proof.
  unfold file_at; cbn [fs]. rewrite lookup_store. unfold entry_after.
  now destruct (lookup path (files f)).
Qed.

Lemma readable_entry_after (f : FS) (path : string) (c : Content) :
  readable (entry_after f path c) = readable_after_write f path.
Proof.
  unfold entry_after, readable_after_write. now destruct (lookup path (files f)).
Qed.

Lemma readable_after_store (f : FS) (path : string) (c : Content) :
  readable_after_write (store f path c) path = readable_after_write f path.
Proof.
  rewrite <- (readable_entry_after f path c).
  unfold readable_after_write. now rewrite lookup_store.
Qed.

Lemma file_at_close_w (path : string) (nc : NcData) (w : World) :
  file_at (close_w path nc w) path = Some (NetCDF nc).
Proof. unfold close_w. apply file_at_store. Qed.

(** ** The Generator *)

(** What the body of the [with] block leaves in the handle when it ends
    without an exception. *)
Lemma generate_body_layout (pv pbv : ndarray) (fmt : nc_format) (nc : NcData) :
  generate_body pv pbv (empty_nc fmt) = (nc, Ok tt) ->
  exists n,
    py_len pv = Ok n /\
    nc_dims nc = [mk_dim "plev" n (Nat.eqb n 0); mk_dim "bnds" 2 false] /\
    option_map var_dtype (lookup "plev" (nc_vars nc)) = Some Float64 /\
    option_map var_dims (lookup "plev" (nc_vars nc)) = Some ["plev"] /\
    option_map var_dtype (lookup "plev_bounds" (nc_vars nc)) = Some Float64 /\
    option_map var_dims (lookup "plev_bounds" (nc_vars nc)) = Some ["plev"; "bnds"].
Proof.
  destruct pv as [d sh data]. destruct pbv as [d' sh' data'].
  unfold generate_body, py_len. simpl arr_shape.
  destruct sh as [|n rest]; [discriminate|].
  cbn -[cast_to convert size_of Nat.mul].
  unfold bind at 1. unfold setitem_all at 1.
  cbn -[cast_to convert size_of Nat.mul shape_eqb].
  destruct (shape_eqb (n :: rest) [n]); [|discriminate].
  unfold bind at 1. unfold setitem_all at 1.
  cbn -[cast_to convert size_of Nat.mul shape_eqb].
  destruct (shape_eqb sh' [n; 2%nat]); [|discriminate].
  cbn -[cast_to convert size_of Nat.mul shape_eqb].
  intros H; inversion H; subst; clear H.
  exists n. cbn. repeat split; reflexivity.
Qed.

(** C4. Whenever the Generator succeeds, for arrays of either precision, the
    file it leaves has the dimension [plev] of the size of the level array and
    the dimension [bnds] of size 2, and both variables are doubles over these
    dimensions. *)
Theorem generated_dimensions_and_types (pv pbv : ndarray) (w w' : World) :
  generate pv pbv w = (w', Ok tt) ->
  exists n nc,
    py_len pv = Ok n /\
    file_at w' level_bounds_nc = Some (NetCDF nc) /\
    nc_dims nc = [mk_dim "plev" n (Nat.eqb n 0); mk_dim "bnds" 2 false] /\
    option_map var_dtype (lookup "plev" (nc_vars nc)) = Some Float64 /\
    option_map var_dims (lookup "plev" (nc_vars nc)) = Some ["plev"] /\
    option_map var_dtype (lookup "plev_bounds" (nc_vars nc)) = Some Float64 /\
    option_map var_dims (lookup "plev_bounds" (nc_vars nc)) = Some ["plev"; "bnds"].
Proof.
  unfold generate, with_Dataset_w, open_w.
  destruct (can_write (fs w) level_bounds_nc); [|discriminate].
  destruct (generate_body pv pbv (empty_nc NETCDF3_CLASSIC)) as [nc r] eqn:E.
  intros H; inversion H; subst; clear H.
  destruct (generate_body_layout _ _ _ _ E) as (n & Hn & Hrest).
  exists n, nc. split; [exact Hn|]. split; [apply file_at_close_w | exact Hrest].
Qed.

Lemma generated_dimensions_and_types_witness :
  generate plev_vals plev_bounds_vals world0
    = (fst (create_level_bounds world0), Ok tt) /\
  exists n nc,
    py_len plev_vals = Ok n /\
    file_at (fst (create_level_bounds world0)) level_bounds_nc = Some (NetCDF nc) /\
    nc_dims nc = [mk_dim "plev" n (Nat.eqb n 0); mk_dim "bnds" 2 false] /\
    option_map var_dtype (lookup "plev" (nc_vars nc)) = Some Float64 /\
    option_map var_dims (lookup "plev" (nc_vars nc)) = Some ["plev"] /\
    option_map var_dtype (lookup "plev_bounds" (nc_vars nc)) = Some Float64 /\
    option_map var_dims (lookup "plev_bounds" (nc_vars nc)) = Some ["plev"; "bnds"].
Proof.
  split; [vm_compute; reflexivity|].
  apply (generated_dimensions_and_types plev_vals plev_bounds_vals world0).
  vm_compute; reflexivity.
Defined.



(** The configured arrays are written without an exception. *)
Lemma generate_body_configured :
  generate_body plev_vals plev_bounds_vals (empty_nc NETCDF3_CLASSIC)
    = (generated_nc, Ok tt).
Proof. vm_compute; reflexivity. Qed.

Lemma create_level_bounds_writable (w : World) :
  can_write (fs w) level_bounds_nc = true ->
  create_level_bounds w
    = (close_w level_bounds_nc generated_nc
         (mk_world (store (fs w) level_bounds_nc (NetCDF (empty_nc NETCDF3_CLASSIC)))
            (stdout w) (trace w ++ [EvOpen level_bounds_nc])),
       Ok tt).
Proof.
  intros H. unfold create_level_bounds, generate, with_Dataset_w, open_w.
  rewrite H, generate_body_configured. reflexivity.
Qed.

(** Opening for reading a readable netCDF file. *)
Lemma read_fields_of_file (w : World) (e : Entry) (nc : NcData) (p b : ndarray) :
  lookup level_bounds_nc (files (fs w)) = Some e ->
  readable e = true ->
  content e = NetCDF nc ->
  getvar_all nc "plev" = Ok p ->
  getvar_all nc "plev_bounds" = Ok b ->
  read_fields w
    = (mk_world (fs w) (stdout w) (trace w ++ [EvOpen level_bounds_nc]), Ok (p, b)).
Proof.
  intros Hl Hr Hc Hp Hb. unfold read_fields, bind, open_r, lift, ret.
  now rewrite Hl, Hr, Hc, Hp, Hb.
Qed.

(** C1. After the Generator has run on a writable path, the Validator's two
    reads return arrays of the shapes of the configured arrays whose elements
    are, in order, the configured float32 elements widened to float64, each
    standing for the same number as the element it comes from. *)
Theorem roundtrip_levels_and_bounds (w : World) :
  can_write (fs w) level_bounds_nc = true ->
  readable_after_write (fs w) level_bounds_nc = true ->
  exists w1 w2 plev plev_bounds,
    create_level_bounds w = (w1, Ok tt) /\
    read_fields w1 = (w2, Ok (plev, plev_bounds)) /\
    arr_shape plev = arr_shape plev_vals /\
    arr_shape plev_bounds = arr_shape plev_bounds_vals /\
    arr_data plev = map (cast_to Float64) (arr_data plev_vals) /\
    arr_data plev_bounds = map (cast_to Float64) (arr_data plev_bounds_vals) /\
    Forall2 same_value (arr_data plev) (arr_data plev_vals) /\
    Forall2 same_value (arr_data plev_bounds) (arr_data plev_bounds_vals).
Proof.
  intros Hw Hr.
  rewrite (create_level_bounds_writable w Hw).
  eexists. eexists. eexists. eexists.
  split; [reflexivity|].
  split.
  - eapply read_fields_of_file.
    + unfold close_w; simpl. apply lookup_store.
    + rewrite readable_entry_after, readable_after_store. exact Hr.
    + unfold entry_after. simpl.
      match goal with |- content (match ?x with _ => _ end) = _ => destruct x end;
        reflexivity.
    + vm_compute; reflexivity.
    + vm_compute; reflexivity.
  - repeat (split; [vm_compute; reflexivity|]).
    split; forall2_by_computation.
Qed.

Lemma roundtrip_levels_and_bounds_witness :
  can_write (fs world0) level_bounds_nc = true /\
  readable_after_write (fs world0) level_bounds_nc = true /\
  exists w1 w2 plev plev_bounds,
    create_level_bounds world0 = (w1, Ok tt) /\
    read_fields w1 = (w2, Ok (plev, plev_bounds)) /\
    arr_shape plev = arr_shape plev_vals /\
    arr_shape plev_bounds = arr_shape plev_bounds_vals /\
    arr_data plev = map (cast_to Float64) (arr_data plev_vals) /\
    arr_data plev_bounds = map (cast_to Float64) (arr_data plev_bounds_vals) /\
    Forall2 same_value (arr_data plev) (arr_data plev_vals) /\
    Forall2 same_value (arr_data plev_bounds) (arr_data plev_bounds_vals).
Proof.
  split; [reflexivity|]. split; [reflexivity|].
  apply (roundtrip_levels_and_bounds world0); reflexivity.
Defined.


(** ** The Validator *)

Lemma fadd_negzero_l (d : dtype) (x : spec_float) :
  fadd d (S754_zero true) x = x.
Proof. destruct x as [[|]|[|]| |s m e]; reflexivity. Qed.

Lemma np_mean_pair (d : dtype) (sh : list nat) (b0 b1 : spec_float) :
  np_mean (mk_ndarray d sh [b0; b1]) = scalar d (spec_midpoint d b0 b1).
Proof.
  unfold np_mean, np_sum, spec_midpoint. cbn [arr_dtype arr_data fold_left List.length].
  now rewrite fadd_negzero_l.
Qed.

Lemma firstn_skipn_one {A} (l : list A) (i : nat) (dflt : A) :
  (i < List.length l)%nat -> firstn 1 (skipn i l) = [nth i l dflt].
Proof.
  revert i; induction l as [|x l IH]; intros [|i] H; simpl in *; try lia.
  - reflexivity.
  - apply IH. lia.
Qed.

Lemma firstn_skipn_two {A} (l : list A) (k : nat) (dflt : A) :
  (S k < List.length l)%nat ->
  firstn 2 (skipn k l) = [nth k l dflt; nth (S k) l dflt].
Proof.
  revert k; induction l as [|x l IH]; intros [|k] H; simpl in *; try lia.
  - destruct l; simpl in *; [lia | reflexivity].
  - apply IH. lia.
Qed.

Lemma getitem_level (a : ndarray) (n i : nat) :
  levels_1d a n -> (i < n)%nat ->
  getitem a i = Ok (scalar (arr_dtype a) (nth i (arr_data a) S754_nan)).
Proof.
  intros [Hs Hl] Hi. unfold getitem, scalar. rewrite Hs.
  destruct (Nat.ltb_spec i n); [|lia].
  cbn [size_of fold_right]. rewrite Nat.mul_1_r.
  rewrite (firstn_skipn_one _ _ S754_nan) by lia. reflexivity.
Qed.

Lemma getitem_row (a : ndarray) (r i : nat) :
  pairs_2d a r -> (i < r)%nat ->
  getitem a i = Ok (mk_ndarray (arr_dtype a) [2%nat]
                      [nth (i * 2) (arr_data a) S754_nan;
                       nth (S (i * 2)) (arr_data a) S754_nan]).
Proof.
  intros [Hs Hl] Hi. unfold getitem. rewrite Hs.
  destruct (Nat.ltb_spec i r); [|lia].
  change (size_of [2%nat]) with 2%nat.
  rewrite (firstn_skipn_two _ _ S754_nan) by lia. reflexivity.
Qed.

Lemma getitem_missing_row (a : ndarray) (r i : nat) :
  pairs_2d a r -> (r <= i)%nat -> getitem a i = Raise IndexError.
Proof.
  intros [Hs _] Hi. unfold getitem. rewrite Hs.
  destruct (Nat.ltb_spec i r); [lia | reflexivity].
Qed.

(** One turn of the loop when row [i] holds two bounds and [plev[i]] is a
    scalar. *)
Lemma check_level_pair (plev plev_bounds : ndarray) (i : nat)
  (d d' : dtype) (sh : list nat) (b0 b1 lev : spec_float) (w : World) :
  getitem plev_bounds i = Ok (mk_ndarray d sh [b0; b1]) ->
  getitem plev i = Ok (scalar d' lev) ->
  check_level plev plev_bounds i w
    = (printed w [spec_line d d' lev b0 b1], Ok tt).
Proof.
  intros Hb Hp. unfold check_level, bind, lift.
  rewrite Hb, Hp, np_mean_pair. reflexivity.
Qed.

(** One turn of the loop either raises without printing or prints one line. *)
Lemma check_level_cases (plev plev_bounds : ndarray) (i : nat) (w : World) :
  (exists e, check_level plev plev_bounds i w = (w, Raise e)) \/
  (exists line, check_level plev plev_bounds i w = (printed w [line], Ok tt)).
Proof.
  unfold check_level, bind, lift, print, printed.
  destruct (getitem plev_bounds i) as [row|e]; [|left; eauto].
  destruct (getitem plev i) as [lev|e]; [|left; eauto].
  destruct (py_format 8 1 lev) as [s1|e]; [|left; eauto].
  destruct (py_format 8 1 (np_mean row)) as [s2|e]; [|left; eauto].
  destruct (py_format 6 1 (np_abs (np_sub_scalar (np_mean row) lev))) as [s3|e];
    [right; eauto | left; eauto].
Qed.

Lemma printed_printed (w : World) (l1 l2 : list string) :
  printed (printed w l1) l2 = printed w (l1 ++ l2).
Proof. unfold printed; simpl. now rewrite app_assoc. Qed.

Lemma printed_nil (w : World) : printed w [] = w.
Proof. destruct w; unfold printed; simpl. now rewrite app_nil_r. Qed.

Lemma for_range_split {St} (body : nat -> M St unit) (k1 k2 : nat) :
  forall start s,
    for_range start (k1 + k2) body s
    = bind (for_range start k1 body)
        (fun _ => for_range (start + k1) k2 body) s.
Proof.
  induction k1 as [|k1 IH]; intros start s.
  - simpl. unfold bind, ret. now rewrite Nat.add_0_r.
  - cbn [Nat.add for_range]. unfold bind.
    destruct (body start s) as [s' [[]|e]]; [|reflexivity].
    rewrite IH. unfold bind. now rewrite Nat.add_succ_r.
Qed.

Lemma read_fields_exposes (w : World) (p b : ndarray) :
  exposes w p b -> read_fields w = (opened w, Ok (p, b)).
Proof.
  intros (e & nc & Hl & Hr & Hc & Hp & Hb).
  exact (read_fields_of_file w e nc p b Hl Hr Hc Hp Hb).
Qed.

Section Loop.
Variables plev plev_bounds : ndarray.
Variables n r : nat.
Hypothesis Hlevels : levels_1d plev n.
Hypothesis Hrows : pairs_2d plev_bounds r.

(** While both the level and its row exist, every turn prints its line. *)
Lemma for_range_rows (k : nat) :
  forall start w,
    (start + k <= n)%nat -> (start + k <= r)%nat ->
    for_range start k (check_level plev plev_bounds) w
    = (printed w (map (line_at plev plev_bounds) (seq start k)), Ok tt).
Proof.
  induction k as [|k IH]; intros start w Hn Hr.
  - simpl. unfold ret. now rewrite printed_nil.
  - cbn [for_range seq map]. unfold bind.
    rewrite (check_level_pair plev plev_bounds start
               (arr_dtype plev_bounds) (arr_dtype plev) [2%nat]
               (nth (start * 2) (arr_data plev_bounds) S754_nan)
               (nth (S (start * 2)) (arr_data plev_bounds) S754_nan)
               (nth start (arr_data plev) S754_nan)).
    + rewrite IH by lia. now rewrite printed_printed.
    + apply (getitem_row _ r); [assumption | lia].
    + apply (getitem_level _ n); [assumption | lia].
Qed.

(** The turn for a row that does not exist raises and prints nothing. *)
Lemma for_range_missing_row (k start : nat) (w : World) :
  (r <= start)%nat ->
  for_range start (S k) (check_level plev plev_bounds) w = (w, Raise IndexError).
Proof.
  intros H. cbn [for_range]. unfold bind, check_level, bind, lift.
  now rewrite (getitem_missing_row _ r start Hrows H).
Qed.

Lemma py_len_levels : py_len plev = Ok n.
Proof. destruct Hlevels as [Hs _]. unfold py_len. now rewrite Hs. Qed.
End Loop.

(** The loop never erases what is already printed. *)
Lemma for_range_stdout_extends (plev plev_bounds : ndarray) (k : nat) :
  forall start w,
    exists extra,
      stdout (fst (for_range start k (check_level plev plev_bounds) w))
      = stdout w ++ extra.
Proof.
  induction k as [|k IH]; intros start w.
  - exists []. simpl. now rewrite app_nil_r.
  - cbn [for_range]. unfold bind.
    destruct (check_level_cases plev plev_bounds start w) as [[e H]|[line H]];
      rewrite H.
    + exists []. simpl. now rewrite app_nil_r.
    + destruct (IH (S start) (printed w [line])) as [extra Hx].
      exists (line :: extra). rewrite Hx. simpl. now rewrite <- app_assoc.
Qed.

Lemma exposes_world_of (nc : NcData) (p b : ndarray) :
  getvar_all nc "plev" = Ok p ->
  getvar_all nc "plev_bounds" = Ok b ->
  exposes (world_of nc) p b.
Proof.
  intros Hp Hb. exists (mk_entry true true (NetCDF nc)), nc.
  repeat split; assumption.
Qed.



(** The text of the first line of scenario A, for fields of either type. *)
Lemma scenario_A_line (d d' : dtype) :
  spec_line d d' (of_int d' 100000) (of_int d 101325) (of_int d 96250)
  = "plev: 100000.0 | midpoint:  98787.5 | diff: 1212.5".
Proof. destruct d, d'; vm_compute; reflexivity. Qed.

(** C3. When the levels start with 100000 and the first bounds row is
    [101325, 96250], the first line the Validator prints reports 100000.0,
    98787.5 and 1212.5 in fields of width 8, 8 and 6 with one decimal. *)
Theorem scenario_A_first_line
  (w : World) (d d' : dtype) (n m : nat) (levels rows : list spec_float) :
  exposes w
    (mk_ndarray d' [S n] (of_int d' 100000 :: levels))
    (mk_ndarray d [S m; 2%nat] (of_int d 101325 :: of_int d 96250 :: rows)) ->
  exists w' r rest,
    levels_check w = (w', r) /\
    stdout w'
    = stdout w ++ "plev: 100000.0 | midpoint:  98787.5 | diff: 1212.5" :: rest.
Proof.
  intros H. unfold levels_check, bind. rewrite (read_fields_exposes _ _ _ H).
  cbn [fst snd]. unfold check_levels, bind, lift, py_len. cbn [arr_shape].
  cbn [for_range]. unfold bind.
  rewrite (check_level_pair _ _ 0 d d' [2%nat]
             (of_int d 101325) (of_int d 96250) (of_int d' 100000));
    [|reflexivity|reflexivity].
  rewrite scenario_A_line.
  match goal with
  | |- context [for_range 1 n ?b ?w0] =>
      destruct (for_range_stdout_extends
                  (mk_ndarray d' [S n] (of_int d' 100000 :: levels))
                  (mk_ndarray d [S m; 2%nat]
                     (of_int d 101325 :: of_int d 96250 :: rows))
                  n 1 w0) as [extra Hx];
      destruct (for_range 1 n b w0) as [w' r] eqn:E
  end.
  exists w', r, extra. split; [reflexivity|].
  cbn [fst] in Hx. rewrite Hx. unfold printed, opened; cbn [stdout].
  now rewrite <- app_assoc.
Qed.

Lemma scenario_A_first_line_witness :
  exposes (world_of scenario_nc) scenario_plev scenario_bounds /\
  exists w' r rest,
    levels_check (world_of scenario_nc) = (w', r) /\
    stdout w'
    = stdout (world_of scenario_nc)
      ++ "plev: 100000.0 | midpoint:  98787.5 | diff: 1212.5" :: rest.
Proof.
  split; [apply exposes_world_of; reflexivity|].
  apply (scenario_A_first_line (world_of scenario_nc) Float64 Float64 1 1
           [of_int Float64 92500] [of_int Float64 96250; of_int Float64 88750]).
  apply exposes_world_of; reflexivity.
Defined.



(** The lines of scenario A, as text. *)
Example scenario_A_output :
  levels_check (world_of scenario_nc)
  = (printed (opened (world_of scenario_nc))
       ["plev: 100000.0 | midpoint:  98787.5 | diff: 1212.5";
        "plev:  92500.0 | midpoint:  92500.0 | diff:    0.0"],
     Ok tt).
Proof. vm_compute; reflexivity. Qed.

(** When a field is absent the Validator raises at the lookup. *)
Lemma levels_check_missing_field (w : World) (e : Entry) (nc : NcData) :
  lookup level_bounds_nc (files (fs w)) = Some e ->
  readable e = true ->
  content e = NetCDF nc ->
  lookup "plev" (nc_vars nc) = None \/ lookup "plev_bounds" (nc_vars nc) = None ->
  exists k, levels_check w = (opened w, Raise k).
Proof.
  intros Hl Hr Hc Hmiss.
  unfold levels_check, read_fields, bind, open_r, lift, getvar_all.
  rewrite Hl, Hr, Hc. fold (opened w).
  destruct (lookup "plev" (nc_vars nc)) as [v|] eqn:Hp.
  - destruct Hmiss as [Hm|Hm]; [discriminate|]. rewrite Hm.
    destruct (shape_of (nc_dims nc) (var_dims v)); eauto.
  - eauto.
Qed.

(** With fewer rows than levels the Validator prints the lines of the rows
    that exist and raises at the first missing row. *)
Lemma levels_check_short_bounds
  (w : World) (plev plev_bounds : ndarray) (n r : nat) :
  exposes w plev plev_bounds ->
  levels_1d plev n -> pairs_2d plev_bounds r -> (r < n)%nat ->
  levels_check w
  = (printed (opened w) (map (line_at plev plev_bounds) (seq 0 r)),
     Raise IndexError).
Proof.
  intros H Hl Hr Hlt. unfold levels_check, bind.
  rewrite (read_fields_exposes _ _ _ H). cbn [fst snd].
  unfold check_levels, bind, lift. rewrite (py_len_levels plev n Hl).
  replace n with (r + S (n - S r))%nat by lia.
  rewrite for_range_split. unfold bind.
  rewrite (for_range_rows plev plev_bounds n r Hl Hr r 0 (opened w)) by lia.
  apply (for_range_missing_row plev plev_bounds r Hr). lia.
Qed.




(** ** File handles *)

(** The Generator closes its handle on every path on which it opened one. *)
Lemma generate_releases_handle (pv pbv : ndarray) (w : World) :
  open_handles (trace w) = [] ->
  open_handles (trace (fst (generate pv pbv w))) = [].
Proof.
  intros H. unfold generate, with_Dataset_w, open_w.
  destruct (can_write (fs w) level_bounds_nc); [|exact H].
  destruct (generate_body pv pbv (empty_nc NETCDF3_CLASSIC)) as [nc r].
  cbn [fst close_w trace]. unfold open_handles in *.
  rewrite !fold_left_app, H. reflexivity.
Qed.

(** The loop of the Validator leaves the handle events as they are. *)
Lemma for_range_trace (plev plev_bounds : ndarray) (k : nat) :
  forall start w,
    trace (fst (for_range start k (check_level plev plev_bounds) w)) = trace w.
Proof.
  induction k as [|k IH]; intros start w; [reflexivity|].
  cbn [for_range]. unfold bind.
  destruct (check_level_cases plev plev_bounds start w) as [[e H]|[line H]];
    rewrite H; [reflexivity|].
  now rewrite IH.
Qed.

(** Once its file is open, the Validator adds no other handle event, whether
    it ends normally or by an exception. *)
Lemma levels_check_trace (w : World) (e : Entry) (nc : NcData) :
  lookup level_bounds_nc (files (fs w)) = Some e ->
  readable e = true ->
  content e = NetCDF nc ->
  trace (fst (levels_check w)) = trace w ++ [EvOpen level_bounds_nc].
Proof.
  intros Hl Hr Hc.
  unfold levels_check, read_fields, bind, open_r, lift, ret.
  rewrite Hl, Hr, Hc.
  destruct (getvar_all nc "plev") as [p|k]; [|reflexivity].
  destruct (getvar_all nc "plev_bounds") as [b|k]; [|reflexivity].
  cbn [fst snd]. unfold check_levels, bind, lift.
  destruct (py_len p) as [n|k]; [|reflexivity].
  now rewrite for_range_trace.
Qed.

(** C8. The Validator does not release its handle: started with no handle
    open on a readable netCDF file, it ends, normally or by an exception, with
    the handle it opened at line 5 still open.  (The Generator does release
    its own, see [generate_releases_handle].) *)
Theorem validator_leaves_handle_open (w : World) (e : Entry) (nc : NcData) :
  open_handles (trace w) = [] ->
  lookup level_bounds_nc (files (fs w)) = Some e ->
  readable e = true ->
  content e = NetCDF nc ->
  open_handles (trace (fst (levels_check w))) = [level_bounds_nc].
Proof.
  intros H Hl Hr Hc. rewrite (levels_check_trace w e nc Hl Hr Hc).
  unfold open_handles in *. now rewrite fold_left_app, H.
Qed.

Lemma validator_leaves_handle_open_witness :
  open_handles (trace (fst (create_level_bounds world0))) = [] /\
  snd (levels_check (fst (create_level_bounds world0))) = Ok tt /\
  open_handles (trace (fst (levels_check (fst (create_level_bounds world0)))))
    = [level_bounds_nc].
Proof.
  split; [reflexivity|]. split; [vm_compute; reflexivity|].
  apply (validator_leaves_handle_open (fst (create_level_bounds world0))
           (mk_entry true true (NetCDF generated_nc)) generated_nc);
    reflexivity.
Defined.

(** * Further properties of the two scripts *)

(** ** The Generator on arbitrary arrays *)

Lemma shape_eqb_refl (a : list nat) : shape_eqb a a = true.
Proof. unfold shape_eqb. destruct (list_eq_dec Nat.eq_dec a a); congruence. Qed.

Lemma shape_eqb_neq (a b : list nat) : a <> b -> shape_eqb a b = false.
Proof. intros H. unfold shape_eqb. destruct (list_eq_dec Nat.eq_dec a b); congruence. Qed.

Lemma lookup_update_other {A} (k k' : string) (v : A) (l : list (string * A)) :
  k <> k' -> lookup k' (update k v l) = lookup k' l.
Proof.
  intros Hne. induction l as [|[k0 v0] l IH]; simpl.
  - destruct (String.eqb_spec k' k); [congruence | reflexivity].
  - destruct (String.eqb_spec k k0); simpl.
    + subst. destruct (String.eqb_spec k' k0); [congruence | reflexivity].
    + destruct (String.eqb_spec k' k0); [reflexivity | exact IH].
Qed.

Lemma update_update_same {A} (k : string) (v1 v2 : A) (l : list (string * A)) :
  update k v2 (update k v1 l) = update k v2 l.
Proof.
  induction l as [|[k0 v0] l IH]; simpl.
  - now rewrite String.eqb_refl.
  - destruct (String.eqb k k0) eqn:E; simpl.
    + now rewrite String.eqb_refl.
    + now rewrite E, IH.
Qed.

Lemma entry_after_store (f : FS) (path : string) (c1 c2 : Content) :
  entry_after (store f path c1) path c2 = entry_after f path c2.
Proof.
  unfold entry_after at 1. rewrite lookup_store. unfold entry_after.
  now destruct (lookup path (files f)).
Qed.

Lemma store_store (f : FS) (path : string) (c1 c2 : Content) :
  store (store f path c1) path c2 = store f path c2.
Proof.
  unfold store at 1. rewrite entry_after_store.
  unfold store. cbn [dir_writable files]. now rewrite update_update_same.
Qed.

Lemma can_write_store (f : FS) (path : string) (c : Content) :
  can_write f path = true -> can_write (store f path c) path = true.
Proof.
  unfold can_write at 2. rewrite lookup_store. unfold entry_after, can_write.
  now destruct (lookup path (files f)).
Qed.

(** A run on a writable path: the file is opened, the body runs on the empty
    handle, and the handle is closed with what the body left in it. *)
Lemma generate_writable (pv pbv : ndarray) (w : World) :
  can_write (fs w) level_bounds_nc = true ->
  generate pv pbv w
  = (close_w level_bounds_nc
       (fst (generate_body pv pbv (empty_nc NETCDF3_CLASSIC))) (opened_w w),
     snd (generate_body pv pbv (empty_nc NETCDF3_CLASSIC))).
Proof.
  intros H. unfold generate, with_Dataset_w, open_w. rewrite H.
  now destruct (generate_body pv pbv (empty_nc NETCDF3_CLASSIC)).
Qed.

(** The body on [n] levels and [n] bounds pairs. *)
Lemma generate_body_complete (pv pbv : ndarray) (n : nat) :
  arr_shape pv = [n] -> arr_shape pbv = [n; 2%nat] ->
  generate_body pv pbv (empty_nc NETCDF3_CLASSIC)
  = (complete_nc pv pbv n, Ok tt).
Proof.
  destruct pv as [d sh data]. destruct pbv as [d' sh' data'].
  cbn [arr_shape]. intros -> ->.
  unfold generate_body, py_len. cbn [arr_shape].
  cbn -[cast_to convert size_of Nat.mul].
  unfold bind at 1. unfold setitem_all at 1.
  cbn -[cast_to convert size_of Nat.mul shape_eqb].
  rewrite shape_eqb_refl.
  unfold bind at 1. unfold setitem_all at 1.
  cbn -[cast_to convert size_of Nat.mul shape_eqb].
  rewrite shape_eqb_refl.
  reflexivity.
Qed.

Lemma generate_fs (pv pbv : ndarray) (w : World) :
  can_write (fs w) level_bounds_nc = true ->
  fs (fst (generate pv pbv w))
  = store (fs w) level_bounds_nc
      (NetCDF (fst (generate_body pv pbv (empty_nc NETCDF3_CLASSIC)))).
Proof.
  intros H. rewrite (generate_writable pv pbv w H).
  unfold close_w, opened_w. cbn [fst fs]. apply store_store.
Qed.



Lemma read_fields_complete (pv pbv : ndarray) (n : nat) (w : World) :
  readable_after_write (fs w) level_bounds_nc = true ->
  read_fields (close_w level_bounds_nc (complete_nc pv pbv n) (opened_w w))
  = (opened (close_w level_bounds_nc (complete_nc pv pbv n) (opened_w w)),
     Ok (read_levels pv n, read_bounds pbv n)).
Proof.
  intros Hr. eapply read_fields_of_file.
  - unfold close_w; cbn [fs]. apply lookup_store.
  - rewrite readable_entry_after. unfold opened_w; cbn [fs].
    rewrite readable_after_store. exact Hr.
  - unfold entry_after.
    match goal with |- content (match ?x with _ => _ end) = _ => destruct x end;
      reflexivity.
  - reflexivity.
  - reflexivity.
Qed.







(** X5. The Generator touches nothing but its own file: whatever the arrays
    and whatever the outcome, every other path holds what it held, and nothing
    is printed. *)
Theorem generate_frame (pv pbv : ndarray) (w : World) (path : string) :
  path <> level_bounds_nc ->
  lookup path (files (fs (fst (generate pv pbv w)))) = lookup path (files (fs w)) /\
  stdout (fst (generate pv pbv w)) = stdout w.
Proof.
  intros Hne.
  destruct (can_write (fs w) level_bounds_nc) eqn:Hw.
  - split.
    + rewrite (generate_fs pv pbv w Hw). unfold store; cbn [files].
      apply lookup_update_other. congruence.
    + rewrite (generate_writable pv pbv w Hw). reflexivity.
  - unfold generate, with_Dataset_w, open_w. rewrite Hw. split; reflexivity.
Qed.

Lemma generate_frame_witness :
  "notes.txt" <> level_bounds_nc /\
  lookup "notes.txt" (files (fs (fst (create_level_bounds world_with_notes))))
    = lookup "notes.txt" (files (fs world_with_notes)) /\
  stdout (fst (create_level_bounds world_with_notes)) = stdout world_with_notes.
Proof.
  split; [discriminate|].
  apply (generate_frame plev_vals plev_bounds_vals world_with_notes "notes.txt").
  discriminate.
Defined.


(** The body stopped by a bounds array that has not the shape [(n, 2)]. *)
Lemma generate_body_stopped (pv pbv : ndarray) (n : nat) :
  arr_shape pv = [n] -> arr_shape pbv <> [n; 2%nat] ->
  generate_body pv pbv (empty_nc NETCDF3_CLASSIC)
  = (stopped_nc pv n, Raise ValueError).
Proof.
  destruct pv as [d sh data]. destruct pbv as [d' sh' data'].
  cbn [arr_shape]. intros -> Hne.
  unfold generate_body, py_len. cbn [arr_shape].
  cbn -[cast_to convert size_of Nat.mul].
  unfold bind at 1. unfold setitem_all at 1.
  cbn -[cast_to convert size_of Nat.mul shape_eqb].
  rewrite shape_eqb_refl.
  unfold bind at 1. unfold setitem_all at 1.
  cbn -[cast_to convert size_of Nat.mul shape_eqb].
  rewrite (shape_eqb_neq _ _ Hne).
  reflexivity.
Qed.



(** ** The Validator on arbitrary files *)

Lemma for_range_fs (plev plev_bounds : ndarray) (k : nat) :
  forall start w,
    fs (fst (for_range start k (check_level plev plev_bounds) w)) = fs w.
Proof.
  induction k as [|k IH]; intros start w; [reflexivity|].
  cbn [for_range]. unfold bind.
  destruct (check_level_cases plev plev_bounds start w) as [[e H]|[line H]];
    rewrite H; [reflexivity|].
  now rewrite IH.
Qed.

Lemma for_range_stdout_bound (plev plev_bounds : ndarray) (k : nat) :
  forall start w,
    exists extra,
      stdout (fst (for_range start k (check_level plev plev_bounds) w))
      = stdout w ++ extra /\
      (List.length extra <= k)%nat.
Proof.
  induction k as [|k IH]; intros start w.
  - exists []. simpl. rewrite app_nil_r. split; [reflexivity | lia].
  - cbn [for_range]. unfold bind.
    destruct (check_level_cases plev plev_bounds start w) as [[e H]|[line H]];
      rewrite H.
    + exists []. simpl. rewrite app_nil_r. split; [reflexivity | lia].
    + destruct (IH (S start) (printed w [line])) as (extra & Hx & Hlen).
      exists (line :: extra). rewrite Hx. simpl. rewrite <- app_assoc.
      split; [reflexivity | lia].
Qed.

(** X8. The Validator is read-only on every input: whatever the file system
    holds at its path, and however the run ends, the files are what they were
    and the lines printed earlier are still there, in front of the new ones. *)
Theorem levels_check_read_only (w : World) :
  fs (fst (levels_check w)) = fs w /\
  exists extra, stdout (fst (levels_check w)) = stdout w ++ extra.
Proof.
  unfold levels_check, read_fields, bind, open_r, lift, ret.
  assert (Hnil : exists extra : list string, stdout w = stdout w ++ extra)
    by (exists []; now rewrite app_nil_r).
  destruct (lookup level_bounds_nc (files (fs w))) as [e|]; [|now split].
  destruct (readable e); [|now split].
  destruct (content e) as [bytes|nc]; [now split|].
  destruct (getvar_all nc "plev") as [p|k]; [|now split].
  destruct (getvar_all nc "plev_bounds") as [b|k]; [|now split].
  cbn [fst snd]. unfold check_levels, bind, lift.
  destruct (py_len p) as [n|k]; [|now split].
  split; [now rewrite for_range_fs|].
  destruct (for_range_stdout_extends p b n 0
              (mk_world (fs w) (stdout w) (trace w ++ [EvOpen level_bounds_nc])))
    as [extra Hx].
  exists extra. exact Hx.
Qed.

(** X9. The Validator never prints more lines than there are levels, whatever
    the shape and the content of [plev_bounds]. *)
Theorem levels_check_at_most_one_line_per_level
  (w : World) (plev plev_bounds : ndarray) (n : nat) :
  exposes w plev plev_bounds ->
  py_len plev = Ok n ->
  exists extra,
    stdout (fst (levels_check w)) = stdout w ++ extra /\
    (List.length extra <= n)%nat.
Proof.
  intros H Hn. unfold levels_check, bind. rewrite (read_fields_exposes _ _ _ H).
  cbn [fst snd]. unfold check_levels, bind, lift. rewrite Hn.
  apply (for_range_stdout_bound plev plev_bounds n 0 (opened w)).
Qed.

Lemma levels_check_at_most_one_line_per_level_witness :
  exposes (world_of short_nc) scenario_plev short_bounds /\
  py_len scenario_plev = Ok 2%nat /\
  exists extra,
    stdout (fst (levels_check (world_of short_nc)))
    = stdout (world_of short_nc) ++ extra /\
    (List.length extra <= 2)%nat.
Proof.
  split; [apply exposes_world_of; reflexivity|]. split; [reflexivity|].
  apply (levels_check_at_most_one_line_per_level (world_of short_nc)
           scenario_plev short_bounds 2);
    [apply exposes_world_of; reflexivity | reflexivity].
Defined.



(** X11. With no level the loop does not run: the Validator prints nothing
    and ends without an exception, whatever [plev_bounds] is. *)
Theorem levels_check_no_level
  (w : World) (plev plev_bounds : ndarray) (rest : list nat) :
  exposes w plev plev_bounds ->
  arr_shape plev = 0%nat :: rest ->
  levels_check w = (opened w, Ok tt).
Proof.
  intros H Hs. unfold levels_check, bind.
  rewrite (read_fields_exposes _ _ _ H). cbn [fst snd].
  unfold check_levels, bind, lift, py_len. rewrite Hs. reflexivity.
Qed.

Lemma levels_check_no_level_witness :
  exposes (world_of no_level_nc)
    (mk_ndarray Float64 [0%nat] []) (mk_ndarray Float64 [0%nat; 2%nat] []) /\
  levels_check (world_of no_level_nc) = (opened (world_of no_level_nc), Ok tt).
Proof.
  split; [apply exposes_world_of; reflexivity|].
  apply (levels_check_no_level (world_of no_level_nc)
           (mk_ndarray Float64 [0%nat] []) (mk_ndarray Float64 [0%nat; 2%nat] []) []);
    [apply exposes_world_of; reflexivity | reflexivity].
Defined.

(** X12. When [plev] has more than one dimension, [plev[i]] is an array and
    cannot be formatted: the Validator raises in the first turn of the loop
    and prints nothing, whatever [plev_bounds] is. *)
Theorem levels_check_levels_not_1d
  (w : World) (plev plev_bounds : ndarray) (n k : nat) (rest : list nat) :
  exposes w plev plev_bounds ->
  arr_shape plev = S n :: k :: rest ->
  aborts_before_printing w.
Proof.
  intros H Hs. unfold aborts_before_printing, levels_check, bind.
  rewrite (read_fields_exposes _ _ _ H). cbn [fst snd].
  unfold check_levels, bind, lift, py_len. rewrite Hs.
  cbn [for_range]. unfold bind, check_level, bind, lift.
  destruct (getitem plev_bounds 0) as [row|e].
  - unfold getitem. rewrite Hs. cbn [Nat.ltb Nat.leb].
    unfold py_format at 1. cbn [arr_shape].
    exists (opened w), TypeError. split; reflexivity.
  - exists (opened w), e. split; reflexivity.
Qed.

Lemma levels_check_levels_not_1d_witness :
  exposes (world_of grid_nc) grid_plev scenario_bounds /\
  aborts_before_printing (world_of grid_nc).
Proof.
  split; [apply exposes_world_of; reflexivity|].
  apply (levels_check_levels_not_1d (world_of grid_nc) grid_plev scenario_bounds
           1 2 []);
    [apply exposes_world_of; reflexivity | reflexivity].
Defined.

Lemma fsub_diag (d : dtype) (x : spec_float) :
  is_finite x = true -> fsub d x x = S754_zero false.
Proof.
  destruct x as [[|]|[|]| |s m e]; try discriminate; intros _; try reflexivity.
  unfold fsub, SFsub. now rewrite Z.sub_diag.
Qed.

Lemma promote_same (d : dtype) : promote d d = d.
Proof. now destruct d. Qed.

Lemma convert_same (d : dtype) (x : spec_float) : convert d d x = x.
Proof. unfold convert. now destruct d. Qed.



(** X14. When the file cannot be opened (no file at the path, a file that
    cannot be read, or a file that is not netCDF) the Validator raises at line
    5 and the world is what it was: nothing printed, no handle opened. *)
Theorem levels_check_cannot_open (w : World) :
  lookup level_bounds_nc (files (fs w)) = None \/
  (exists e, lookup level_bounds_nc (files (fs w)) = Some e /\
             (readable e = false \/ exists bytes, content e = NotNetCDF bytes)) ->
  exists e, levels_check w = (w, Raise e).
Proof.
  unfold levels_check, read_fields, bind, open_r.
  intros [H|(e & H & [Hr|[bytes Hc]])]; rewrite H.
  - eauto.
  - rewrite Hr. eauto.
  - rewrite Hc. destruct (readable e); eauto.
Qed.

Lemma levels_check_cannot_open_witness :
  (exists e, levels_check world0 = (world0, Raise e)) /\
  (exists e, levels_check world_previous = (world_previous, Raise e)).
Proof.
  split.
  - apply (levels_check_cannot_open world0). left; reflexivity.
  - apply (levels_check_cannot_open world_previous). right.
    exists (mk_entry true true (NotNetCDF "previous run")).
    split; [reflexivity|]. right. exists "previous run". reflexivity.
Defined.

Lemma length_append (a b : string) :
  String.length (a ++ b) = (String.length a + String.length b)%nat.
Proof. induction a as [|c a IH]; simpl; [reflexivity | now rewrite IH]. Qed.

Lemma length_replicate_space (n : nat) : String.length (replicate n " ") = n.
Proof. induction n as [|n IH]; simpl; [reflexivity | now rewrite IH]. Qed.

Lemma format_f_width (width prec : nat) (x : spec_float) :
  (width <= String.length (format_f width prec x))%nat.
Proof.
  unfold format_f, rjust. rewrite length_append, length_replicate_space. lia.
Qed.

Lemma py_format_width (width prec : nat) (a : ndarray) (s : string) :
  py_format width prec a = Ok s -> (width <= String.length s)%nat.
Proof.
  unfold py_format.
  destruct (arr_shape a); [|discriminate].
  destruct (arr_data a) as [|x [|y l]]; try discriminate.
  intros H; inversion H; subst. apply format_f_width.
Qed.


